(** * Mergington High School activities API: the in-memory registry

    A shallow embedding of [src/app.py].  The module-level dictionary
    [activities] is the only state of the program; the request handlers
    read and mutate it in place.  A handler is modelled as a function
    from the registry before the call to the outcome of the call (the
    returned JSON body, or the [HTTPException] that was raised) paired
    with the registry after the call. *)

From stdpp Require Import gmap strings list fin_maps.
From Stdlib Require Import ZArith.

Local Open Scope Z_scope.
Local Open Scope string_scope.
Local Open Scope list_scope.

(** ** Data model *)

(** One value of the [activities] dictionary.  In the source it is itself
    a dictionary with the four fixed keys below. *)
Record Activity := mkActivity {
  description : string;
  schedule : string;
  max_participants : Z;
  participants : list string
}.

(** [fastapi.HTTPException(status_code=..., detail=...)]. *)
Record HTTPException := mkHTTPException {
  status_code : Z;
  detail : string
}.

(** The body [{"message": ...}] returned by a handler that succeeds. *)
Record Message := mkMessage { message : string }.

(** How a call of a handler ends: it returns a value (served with status
    200) or raises. *)
Inductive outcome (A : Type) : Type :=
| Returned (a : A)
| Raised (e : HTTPException).
Arguments Returned {A} a.
Arguments Raised {A} e.

(** ** Handlers as state-and-exception computations over the registry *)

Definition handler (A : Type) : Type :=
  gmap string Activity → outcome A * gmap string Activity.

#[global] Instance handler_ret : MRet handler :=
  λ A a registry, (Returned a, registry).

#[global] Instance handler_bind : MBind handler :=
  λ A B k m registry,
    match m registry with
    | (Returned a, registry') => k a registry'
    | (Raised e, registry') => (Raised e, registry')
    end.

(** [raise HTTPException(...)]. *)
Definition raise {A} (e : HTTPException) : handler A :=
  λ registry, (Raised e, registry).

(** Reading the global [activities]. *)
Definition read_activities : handler (gmap string Activity) :=
  λ registry, (Returned registry, registry).

(** [list.append] on the [participants] list of one record. *)
Definition append (email : string) (activity : Activity) : Activity :=
  {| description := description activity;
     schedule := schedule activity;
     max_participants := max_participants activity;
     participants := participants activity ++ [email] |}.

(** [activities[activity_name]["participants"].append(email)]: the record
    bound to [activity] in the source is the very object stored in the
    dictionary, so the append is an update of the registry at that key. *)
Definition append_participant (activity_name email : string) : handler () :=
  λ registry, (Returned (), alter (append email) activity_name registry).

(** ** The seed: [activities = {...}]

    Every record of the literal has a list of its own, so no two keys
    share a participant list. *)

Definition activities : gmap string Activity :=
  list_to_map [
    ("Basketball Club",
     mkActivity "Play basketball and improve athletic skills"
                "Mondays and Wednesdays, 4:00 PM - 5:30 PM" 15 []);
    ("Tennis Team",
     mkActivity "Learn tennis techniques and compete in matches"
                "Tuesdays and Thursdays, 3:30 PM - 5:00 PM" 10 []);
    ("Art Studio",
     mkActivity "Explore painting, drawing, and sculpture techniques"
                "Wednesdays, 3:30 PM - 5:00 PM" 18 []);
    ("Music Band",
     mkActivity "Join the school band and perform in concerts"
                "Mondays and Thursdays, 4:00 PM - 5:30 PM" 25 []);
    ("Debate Team",
     mkActivity "Develop argumentation skills and compete in debates"
                "Tuesdays, 3:30 PM - 5:00 PM" 16 []);
    ("Science Club",
     mkActivity "Conduct experiments and explore scientific concepts"
                "Fridays, 3:30 PM - 5:00 PM" 20 [])
  ].

(** ** [GET /activities] *)

Definition get_activities : handler (gmap string Activity) :=
  read_activities.

(** ** [POST /activities/{activity_name}/signup] *)

Definition signup_for_activity (activity_name email : string) : handler Message :=
  registry ← read_activities;
  match registry !! activity_name with
  | None =>
      (* activity_name not in activities *)
      raise (mkHTTPException 404 "Activity not found")
  | Some activity =>
      if bool_decide (email ∈ participants activity) then
        raise (mkHTTPException 400 "Student already signed up for this activity")
      else
        _ ← append_participant activity_name email;
        mret (mkMessage ("Signed up " +:+ email +:+ " for " +:+ activity_name))
  end.

(** ** [DELETE /activities/{activity_name}/unregister] *)

Section Unregister.

(** The specification fixes the detail of the "not registered" error only
    up to the text around the words "not signed up"; that text is left
    open here. *)
Variables detail_before detail_after : string.

Definition not_signed_up_detail : string :=
  detail_before +:+ "not signed up" +:+ detail_after.

(** Taking [email] out of the participant set of one record; the other
    emails keep their order. *)
Definition remove (email : string) (activity : Activity) : Activity :=
  {| description := description activity;
     schedule := schedule activity;
     max_participants := max_participants activity;
     participants := filter (λ e, e ≠ email) (participants activity) |}.

Definition remove_participant (activity_name email : string) : handler () :=
  λ registry, (Returned (), alter (remove email) activity_name registry).

(** Modelled from the spec: the handler of the unregister route, which
    [src/app.py] does not define (only [tests/test_app.py] calls it).  It
    follows section 4.1 and the interface table of section 6: [NotFound]
    when the activity is absent, the "not registered" error when the email
    is not in the participant set, otherwise the email is removed and the
    confirmation is returned. *)
Definition unregister (activity_name email : string) : handler Message :=
  registry ← read_activities;
  match registry !! activity_name with
  | None =>
      raise (mkHTTPException 404 "Activity not found")
  | Some activity =>
      if bool_decide (email ∈ participants activity) then
        _ ← remove_participant activity_name email;
        mret (mkMessage ("Unregistered " +:+ email +:+ " from " +:+ activity_name))
      else
        raise (mkHTTPException 400 not_signed_up_detail)
  end.

(** ** Requests and runs of the service *)

Inductive request : Type :=
| GetActivities
| Signup (activity_name email : string)
| Unregister (activity_name email : string).

(** The registry after one request has been served, whatever its outcome. *)
Definition serve (r : request) (registry : gmap string Activity) : gmap string Activity :=
  match r with
  | GetActivities => snd (get_activities registry)
  | Signup activity_name email => snd (signup_for_activity activity_name email registry)
  | Unregister activity_name email => snd (unregister activity_name email registry)
  end.

(** The registry after a sequence of requests, oldest first. *)
Definition serve_all (rs : list request) (registry : gmap string Activity) : gmap string Activity :=
  foldl (λ registry r, serve r registry) registry rs.

End Unregister.

(** ** Vocabulary of the properties *)

(** [needle in haystack] on Python strings, as the tests use it on
    [detail] and [message]. *)
Fixpoint str_contains (needle haystack : string) : bool :=
  if String.prefix needle haystack then true
  else match haystack with
       | EmptyString => false
       | String _ rest => str_contains needle rest
       end.

(** [l.count(email)]. *)
Definition occurrences (email : string) (l : list string) : nat :=
  length (filter (λ e, e = email) l).

(** The state of the per-(activity, email) state machine. *)
Definition signed_up (registry : gmap string Activity) (activity_name email : string) : Prop :=
  ∃ activity, registry !! activity_name = Some activity ∧ email ∈ participants activity.

(** The data-model invariant: no participant list holds an email twice. *)
Definition no_duplicate_participants (registry : gmap string Activity) : Prop :=
  map_Forall (λ _ activity, NoDup (participants activity)) registry.

(** Signup, unregister and signup again for one (activity, email) pair,
    each call succeeding and the pair ending signed up. *)
Definition signup_unregister_signup_succeeds
    (detail_before detail_after : string)
    (registry : gmap string Activity) (activity_name email : string) : Prop :=
  ∃ m1 r1 m2 r2 m3 r3,
    signup_for_activity activity_name email registry = (Returned m1, r1) ∧
    unregister detail_before detail_after activity_name email r1 = (Returned m2, r2) ∧
    signup_for_activity activity_name email r2 = (Returned m3, r3) ∧
    signed_up r3 activity_name email.

(** A registry in which Tennis Team (capacity 10) already has ten
    participants, reached from the seed by ten signups. *)
Definition full_tennis_team : gmap string Activity :=
  foldl (λ registry email, snd (signup_for_activity "Tennis Team" email registry))
        activities
        ["s0@mergington.edu"; "s1@mergington.edu"; "s2@mergington.edu";
         "s3@mergington.edu"; "s4@mergington.edu"; "s5@mergington.edu";
         "s6@mergington.edu"; "s7@mergington.edu"; "s8@mergington.edu";
         "s9@mergington.edu"].

(** The record of Tennis Team in [full_tennis_team]. *)
Definition tennis_team_of_ten : Activity :=
  mkActivity "Learn tennis techniques and compete in matches"
             "Tuesdays and Thursdays, 3:30 PM - 5:00 PM" 10
             ["s0@mergington.edu"; "s1@mergington.edu"; "s2@mergington.edu";
              "s3@mergington.edu"; "s4@mergington.edu"; "s5@mergington.edu";
              "s6@mergington.edu"; "s7@mergington.edu"; "s8@mergington.edu";
              "s9@mergington.edu"].

(** The registry once [student4@mergington.edu] has signed up for Art
    Studio, and the record of Art Studio in it. *)
Definition art_studio_signed_up : gmap string Activity :=
  snd (signup_for_activity "Art Studio" "student4@mergington.edu" activities).

Definition art_studio_of_one : Activity :=
  mkActivity "Explore painting, drawing, and sculpture techniques"
             "Wednesdays, 3:30 PM - 5:00 PM" 18
             ["student4@mergington.edu"].

(** The seeded record of Art Studio. *)
Definition art_studio_seed : Activity :=
  mkActivity "Explore painting, drawing, and sculpture techniques"
             "Wednesdays, 3:30 PM - 5:00 PM" 18 [].

(** ** Sessions of a client against the routes of [src/app.py]

    A client (the [TestClient] of [tests/test_app.py], say) issues calls
    one after the other against the one registry; each call is answered
    by the handler of its route. *)

Inductive call : Type :=
| ListActivities
| PostSignup (activity_name email : string).

#[global] Instance call_eq_dec : EqDecision call.
Proof. solve_decision. Defined.

Inductive response : Type :=
| Listing (registry : gmap string Activity)
| Confirmed (m : Message)
| Failed (e : HTTPException).

Definition respond {A} (body : A → response) (o : outcome A) : response :=
  match o with
  | Returned a => body a
  | Raised e => Failed e
  end.

Definition perform (c : call) (registry : gmap string Activity)
    : response * gmap string Activity :=
  match c with
  | ListActivities =>
      let '(o, registry') := get_activities registry in
      (respond Listing o, registry')
  | PostSignup activity_name email =>
      let '(o, registry') := signup_for_activity activity_name email registry in
      (respond Confirmed o, registry')
  end.

Fixpoint session (cs : list call) (registry : gmap string Activity)
    : list response * gmap string Activity :=
  match cs with
  | [] => ([], registry)
  | c :: cs' =>
      let '(resp, registry') := perform c registry in
      let '(resps, registry'') := session cs' registry' in
      (resp :: resps, registry'')
  end.

Definition is_listing (resp : response) : bool :=
  match resp with
  | Listing _ => true
  | _ => false
  end.

(** The emails of the signups for [activity_name] that were confirmed, in
    the order of the calls. *)
Fixpoint confirmed_signups (activity_name : string)
    (cs : list call) (resps : list response) : list string :=
  match cs, resps with
  | PostSignup name email :: cs', Confirmed _ :: resps' =>
      if decide (name = activity_name)
      then email :: confirmed_signups activity_name cs' resps'
      else confirmed_signups activity_name cs' resps'
  | _ :: cs', _ :: resps' => confirmed_signups activity_name cs' resps'
  | _, _ => []
  end.

(** A short session on which the closed instances below are stated. *)
Definition sample_session : list call :=
  [ PostSignup "Music Band" "student5@mergington.edu";
    ListActivities;
    PostSignup "Debate Team" "student5@mergington.edu";
    PostSignup "Music Band" "student5@mergington.edu";
    PostSignup "Chess Club" "student5@mergington.edu";
    PostSignup "Music Band" "student6@mergington.edu" ].

Definition music_band_seed : Activity :=
  mkActivity "Join the school band and perform in concerts"
             "Mondays and Thursdays, 4:00 PM - 5:30 PM" 25 [].

Definition debate_team_seed : Activity :=
  mkActivity "Develop argumentation skills and compete in debates"
             "Tuesdays, 3:30 PM - 5:00 PM" 16 [].

(** * Properties *)

(** ** Stepping through a handler *)

(** Unfolds the state-and-exception plumbing of a handler call. *)
Ltac step_handler :=
  unfold signup_for_activity, unregister, get_activities,
    append_participant, remove_participant, read_activities, raise;
  unfold mbind, handler_bind, mret, handler_ret; cbn beta iota.

Lemma signup_lookup_None registry activity_name email :
  registry !! activity_name = None →
  signup_for_activity activity_name email registry
  = (Raised (mkHTTPException 404 "Activity not found"), registry).
Proof. intros Hnone. step_handler. by rewrite Hnone. Qed.

Lemma signup_lookup_member registry activity_name email activity :
  registry !! activity_name = Some activity →
  email ∈ participants activity →
  signup_for_activity activity_name email registry
  = (Raised (mkHTTPException 400 "Student already signed up for this activity"),
     registry).
Proof.
  intros Hsome Hin. step_handler. rewrite Hsome.
  by rewrite bool_decide_eq_true_2.
Qed.

Lemma signup_lookup_fresh registry activity_name email activity :
  registry !! activity_name = Some activity →
  email ∉ participants activity →
  signup_for_activity activity_name email registry
  = (Returned (mkMessage ("Signed up " +:+ email +:+ " for " +:+ activity_name)),
     <[activity_name := append email activity]> registry).
Proof.
  intros Hsome Hnotin. step_handler. rewrite Hsome.
  rewrite bool_decide_eq_false_2 by done.
  by rewrite (alter_alt_Some _ _ _ _ Hsome).
Qed.

(** A call that returns has found the activity and not the email. *)
Lemma signup_Returned_inv registry activity_name email msg registry' :
  signup_for_activity activity_name email registry = (Returned msg, registry') →
  ∃ activity,
    registry !! activity_name = Some activity ∧
    (email ∉ participants activity) ∧
    registry' = <[activity_name := append email activity]> registry.
Proof.
  intros Hcall.
  destruct (registry !! activity_name) as [activity|] eqn:Hlook.
  - destruct (decide (email ∈ participants activity)) as [Hin|Hnotin].
    + rewrite (signup_lookup_member _ _ _ _ Hlook Hin) in Hcall. discriminate.
    + rewrite (signup_lookup_fresh _ _ _ _ Hlook Hnotin) in Hcall.
      exists activity. by inversion Hcall.
  - rewrite (signup_lookup_None _ _ _ Hlook) in Hcall. discriminate.
Qed.

(** A call that raises leaves the registry as it was. *)
Lemma signup_Raised_unchanged registry activity_name email e registry' :
  signup_for_activity activity_name email registry = (Raised e, registry') →
  registry' = registry.
Proof.
  intros Hcall.
  destruct (registry !! activity_name) as [activity|] eqn:Hlook.
  - destruct (decide (email ∈ participants activity)) as [Hin|Hnotin].
    + rewrite (signup_lookup_member _ _ _ _ Hlook Hin) in Hcall. by inversion Hcall.
    + rewrite (signup_lookup_fresh _ _ _ _ Hlook Hnotin) in Hcall. discriminate.
  - rewrite (signup_lookup_None _ _ _ Hlook) in Hcall. by inversion Hcall.
Qed.

Lemma signup_dom registry activity_name email :
  dom (snd (signup_for_activity activity_name email registry)) = dom registry.
Proof.
  destruct (signup_for_activity activity_name email registry) as [[msg|e] registry'] eqn:Hcall.
  - apply signup_Returned_inv in Hcall.
    destruct Hcall as (activity & Hlook & _ & ->). cbn.
    apply dom_insert_lookup_L. by rewrite Hlook.
  - apply signup_Raised_unchanged in Hcall. by subst registry'.
Qed.

(** ** Counting and searching *)

Lemma occurrences_cons email x (l : list string) :
  occurrences email (x :: l)
  = if decide (x = email) then S (occurrences email l) else occurrences email l.
Proof. unfold occurrences. rewrite filter_cons. by case_decide. Qed.

Lemma occurrences_absent email (l : list string) :
  email ∉ l → occurrences email l = 0%nat.
Proof.
  induction l as [|x l IH]; intros Hnotin; [done|].
  rewrite not_elem_of_cons in Hnotin. destruct Hnotin as [Hne Hrest].
  rewrite occurrences_cons, decide_False by congruence. by apply IH.
Qed.

Lemma occurrences_NoDup email (l : list string) :
  NoDup l → email ∈ l → occurrences email l = 1%nat.
Proof.
  induction 1 as [|x l Hx Hnodup IH]; intros Hin.
  - by apply elem_of_nil in Hin.
  - rewrite occurrences_cons. case_decide as Heq.
    + subst x. by rewrite (occurrences_absent email l Hx).
    + apply IH. apply elem_of_cons in Hin as [->|Hin]; done.
Qed.

Lemma prefix_append (needle rest : string) :
  String.prefix needle (needle +:+ rest) = true.
Proof.
  induction needle as [|a needle IH]; [by destruct rest|].
  change (match Ascii.ascii_dec a a with
          | left _ => String.prefix needle (needle +:+ rest)
          | right _ => false
          end = true).
  destruct (Ascii.ascii_dec a a) as [_|Hne]; [exact IH | by destruct Hne].
Qed.

Lemma str_contains_unfold (needle haystack : string) :
  str_contains needle haystack
  = if String.prefix needle haystack then true
    else match haystack with
         | EmptyString => false
         | String _ rest => str_contains needle rest
         end.
Proof. by destruct haystack. Qed.

Lemma str_contains_here (needle rest : string) :
  str_contains needle (needle +:+ rest) = true.
Proof. by rewrite str_contains_unfold, prefix_append. Qed.

Lemma str_contains_middle (before needle after : string) :
  str_contains needle (before +:+ needle +:+ after) = true.
Proof.
  induction before as [|a before IH].
  - exact (str_contains_here needle after).
  - change (String a before +:+ needle +:+ after)
      with (String a (before +:+ needle +:+ after)).
    rewrite str_contains_unfold, IH. by destruct (String.prefix _ _).
Qed.

(** ** The unregister handler, case by case *)

Section UnregisterCases.

Variables detail_before detail_after : string.

Lemma unregister_lookup_None registry activity_name email :
  registry !! activity_name = None →
  unregister detail_before detail_after activity_name email registry
  = (Raised (mkHTTPException 404 "Activity not found"), registry).
Proof. intros Hnone. step_handler. by rewrite Hnone. Qed.

Lemma unregister_lookup_absent registry activity_name email activity :
  registry !! activity_name = Some activity →
  email ∉ participants activity →
  unregister detail_before detail_after activity_name email registry
  = (Raised (mkHTTPException 400 (not_signed_up_detail detail_before detail_after)),
     registry).
Proof.
  intros Hsome Hnotin. step_handler. rewrite Hsome.
  by rewrite bool_decide_eq_false_2.
Qed.

Lemma unregister_lookup_member registry activity_name email activity :
  registry !! activity_name = Some activity →
  email ∈ participants activity →
  unregister detail_before detail_after activity_name email registry
  = (Returned (mkMessage ("Unregistered " +:+ email +:+ " from " +:+ activity_name)),
     <[activity_name := remove email activity]> registry).
Proof.
  intros Hsome Hin. step_handler. rewrite Hsome.
  rewrite bool_decide_eq_true_2 by done.
  by rewrite (alter_alt_Some _ _ _ _ Hsome).
Qed.

(** Whatever the outcome, the registry afterwards is the old one, or the
    old one with the activity's record replaced by [remove email]. *)
Lemma unregister_registry registry activity_name email :
  snd (unregister detail_before detail_after activity_name email registry) = registry ∨
  ∃ activity,
    registry !! activity_name = Some activity ∧
    snd (unregister detail_before detail_after activity_name email registry)
    = <[activity_name := remove email activity]> registry.
Proof.
  destruct (registry !! activity_name) as [activity|] eqn:Hlook.
  - destruct (decide (email ∈ participants activity)) as [Hin|Hnotin].
    + right. exists activity. by rewrite (unregister_lookup_member _ _ _ _ Hlook Hin).
    + left. by rewrite (unregister_lookup_absent _ _ _ _ Hlook Hnotin).
  - left. by rewrite (unregister_lookup_None _ _ _ Hlook).
Qed.

Lemma unregister_dom registry activity_name email :
  dom (snd (unregister detail_before detail_after activity_name email registry))
  = dom registry.
Proof.
  destruct (unregister_registry registry activity_name email)
    as [-> | (activity & Hlook & ->)]; [done|].
  apply dom_insert_lookup_L. by rewrite Hlook.
Qed.

Lemma serve_dom r registry :
  dom (serve detail_before detail_after r registry) = dom registry.
Proof.
  destruct r as [|activity_name email|activity_name email]; cbn [serve].
  - done.
  - apply signup_dom.
  - apply unregister_dom.
Qed.

Lemma serve_all_dom rs registry :
  dom (serve_all detail_before detail_after rs registry) = dom registry.
Proof.
  revert registry. induction rs as [|r rs IH]; intros registry; [done|].
  cbn. unfold serve_all in IH. by rewrite IH, serve_dom.
Qed.

End UnregisterCases.

(** ** The participant lists stay duplicate-free *)

Lemma activities_no_duplicates : no_duplicate_participants activities.
Proof.
  unfold no_duplicate_participants.
  apply (bool_decide_unpack _). vm_compute. exact I.
Qed.

Lemma insert_no_duplicates registry activity_name activity :
  no_duplicate_participants registry →
  NoDup (participants activity) →
  no_duplicate_participants (<[activity_name := activity]> registry).
Proof. intros Hinv Hnodup. by apply map_Forall_insert_2. Qed.

Lemma signup_no_duplicates registry activity_name email :
  no_duplicate_participants registry →
  no_duplicate_participants (snd (signup_for_activity activity_name email registry)).
Proof.
  intros Hinv.
  destruct (signup_for_activity activity_name email registry)
    as [[msg|e] registry'] eqn:Hcall; cbn.
  - apply signup_Returned_inv in Hcall.
    destruct Hcall as (activity & Hlook & Hnotin & ->).
    apply insert_no_duplicates; [done|]. cbn.
    apply NoDup_app. split_and!.
    + exact (Hinv _ _ Hlook).
    + intros x Hx Hx'. apply list_elem_of_singleton in Hx'. by subst x.
    + apply NoDup_singleton.
  - apply signup_Raised_unchanged in Hcall. by subst registry'.
Qed.

Lemma unregister_no_duplicates detail_before detail_after registry activity_name email :
  no_duplicate_participants registry →
  no_duplicate_participants
    (snd (unregister detail_before detail_after activity_name email registry)).
Proof.
  intros Hinv.
  destruct (unregister_registry detail_before detail_after registry activity_name email)
    as [-> | (activity & Hlook & ->)]; [done|].
  apply insert_no_duplicates; [done|]. cbn.
  apply NoDup_filter. exact (Hinv _ _ Hlook).
Qed.

Lemma serve_all_no_duplicates detail_before detail_after rs registry :
  no_duplicate_participants registry →
  no_duplicate_participants (serve_all detail_before detail_after rs registry).
Proof.
  revert registry. induction rs as [|r rs IH]; intros registry Hinv; [done|].
  cbn. apply IH.
  destruct r as [|activity_name email|activity_name email]; cbn [serve].
  - done.
  - by apply signup_no_duplicates.
  - by apply unregister_no_duplicates.
Qed.

(** * The claims *)

(** ** Signup *)

(** C3. For every activity name that is not a key of the registry and
    every email, signup raises the HTTP 404 error with detail
    "Activity not found", and the registry after the call is the registry
    before it. *)
Theorem signup_unknown_activity registry activity_name email :
  activity_name ∉ dom registry →
  signup_for_activity activity_name email registry
  = (Raised (mkHTTPException 404 "Activity not found"), registry).
Proof.
  intros Hfresh. apply signup_lookup_None. by apply not_elem_of_dom.
Qed.

Lemma signup_unknown_activity_witness :
  ("Nonexistent Activity" ∉ dom activities) ∧
  signup_for_activity "Nonexistent Activity" "student@mergington.edu" activities
  = (Raised (mkHTTPException 404 "Activity not found"), activities).
Proof.
  assert (Hfresh : "Nonexistent Activity" ∉ dom activities)
    by (apply (bool_decide_unpack _); vm_compute; exact I).
  split; [exact Hfresh|].
  exact (signup_unknown_activity activities "Nonexistent Activity"
           "student@mergington.edu" Hfresh).
Defined.

(** C4. For every activity name present in the registry and every email
    not yet in that activity's participant list, signup returns the
    confirmation "Signed up {email} for {name}", and afterwards the
    activity's participant list is the earlier list, in its order, with
    the email added at the end. *)
Theorem signup_appends registry activity_name email activity :
  registry !! activity_name = Some activity →
  email ∉ participants activity →
  ∃ registry',
    signup_for_activity activity_name email registry
    = (Returned (mkMessage ("Signed up " +:+ email +:+ " for " +:+ activity_name)),
       registry') ∧
    participants <$> registry' !! activity_name
    = Some (participants activity ++ [email]).
Proof.
  intros Hlook Hnotin. eexists. split.
  - by apply signup_lookup_fresh.
  - by rewrite lookup_insert_eq.
Qed.

Lemma signup_appends_witness :
  art_studio_signed_up !! "Art Studio" = Some art_studio_of_one ∧
  ("student9@mergington.edu" ∉ participants art_studio_of_one) ∧
  ∃ registry',
    signup_for_activity "Art Studio" "student9@mergington.edu" art_studio_signed_up
    = (Returned (mkMessage "Signed up student9@mergington.edu for Art Studio"),
       registry') ∧
    participants <$> registry' !! "Art Studio"
    = Some ["student4@mergington.edu"; "student9@mergington.edu"].
Proof.
  assert (Hlook : art_studio_signed_up !! "Art Studio" = Some art_studio_of_one)
    by (vm_compute; reflexivity).
  assert (Hnotin : "student9@mergington.edu" ∉ participants art_studio_of_one)
    by (apply (bool_decide_unpack _); vm_compute; exact I).
  split; [exact Hlook|]. split; [exact Hnotin|].
  exact (signup_appends art_studio_signed_up "Art Studio"
           "student9@mergington.edu" art_studio_of_one Hlook Hnotin).
Defined.

(** The two calls of the duplicate-signup test, from any registry: when
    the first signup returns, the second raises the 400 error and the
    email is in the list once. *)
Lemma signup_twice registry activity_name email msg registry' :
  signup_for_activity activity_name email registry = (Returned msg, registry') →
  signup_for_activity activity_name email registry'
  = (Raised (mkHTTPException 400 "Student already signed up for this activity"),
     registry') ∧
  (occurrences email ∘ participants) <$> registry' !! activity_name = Some 1%nat.
Proof.
  intros Hcall. apply signup_Returned_inv in Hcall.
  destruct Hcall as (activity & Hlook & Hnotin & ->).
  assert (Hin : email ∈ participants (append email activity))
    by (cbn; apply elem_of_app; right; apply list_elem_of_singleton; done).
  split.
  - apply (signup_lookup_member _ _ _ (append email activity)); [|done].
    by rewrite lookup_insert_eq.
  - rewrite lookup_insert_eq. cbn [fmap option_fmap option_map compose]. f_equal.
    unfold occurrences. cbn [participants append].
    rewrite filter_app, length_app.
    fold (occurrences email (participants activity)).
    rewrite (occurrences_absent _ _ Hnotin).
    by rewrite filter_cons_True.
Qed.

(** C2. For every activity name in the registry and every email already
    in that activity's (duplicate-free) participant list, a further signup
    with the same activity and email raises the HTTP 400 error with detail
    "Student already signed up for this activity"; the registry is left as
    it was, and the participant list holds that email exactly once. *)
Theorem signup_duplicate registry activity_name email activity :
  registry !! activity_name = Some activity →
  NoDup (participants activity) →
  email ∈ participants activity →
  ∃ registry',
    signup_for_activity activity_name email registry
    = (Raised (mkHTTPException 400 "Student already signed up for this activity"),
       registry') ∧
    registry' = registry ∧
    (occurrences email ∘ participants) <$> registry' !! activity_name = Some 1%nat.
Proof.
  intros Hlook Hnodup Hin. exists registry. split_and!.
  - by apply (signup_lookup_member _ _ _ activity).
  - done.
  - rewrite Hlook. cbn [fmap option_fmap option_map compose]. f_equal.
    by apply occurrences_NoDup.
Qed.

Lemma signup_duplicate_witness :
  art_studio_signed_up !! "Art Studio" = Some art_studio_of_one ∧
  NoDup (participants art_studio_of_one) ∧
  ("student4@mergington.edu" ∈ participants art_studio_of_one) ∧
  ∃ registry',
    signup_for_activity "Art Studio" "student4@mergington.edu" art_studio_signed_up
    = (Raised (mkHTTPException 400 "Student already signed up for this activity"),
       registry') ∧
    registry' = art_studio_signed_up ∧
    (occurrences "student4@mergington.edu" ∘ participants)
      <$> registry' !! "Art Studio" = Some 1%nat.
Proof.
  assert (Hlook : art_studio_signed_up !! "Art Studio" = Some art_studio_of_one)
    by (vm_compute; reflexivity).
  assert (Hnodup : NoDup (participants art_studio_of_one))
    by (apply (bool_decide_unpack _); vm_compute; exact I).
  assert (Hin : "student4@mergington.edu" ∈ participants art_studio_of_one)
    by (apply (bool_decide_unpack _); vm_compute; exact I).
  split; [exact Hlook|]. split; [exact Hnodup|]. split; [exact Hin|].
  exact (signup_duplicate art_studio_signed_up "Art Studio"
           "student4@mergington.edu" art_studio_of_one Hlook Hnodup Hin).
Defined.

(** C6. Signup performs no capacity check: for every activity in the
    registry and every email not yet in its participant list, signup
    returns its confirmation even when the number of participants has
    reached or passed [max_participants]; the capacity is left as it was
    and the number of participants then exceeds it. *)
Theorem signup_ignores_capacity registry activity_name email activity :
  registry !! activity_name = Some activity →
  email ∉ participants activity →
  (max_participants activity ≤ Z.of_nat (length (participants activity)))%Z →
  ∃ registry' activity',
    signup_for_activity activity_name email registry
    = (Returned (mkMessage ("Signed up " +:+ email +:+ " for " +:+ activity_name)),
       registry') ∧
    registry' !! activity_name = Some activity' ∧
    max_participants activity' = max_participants activity ∧
    length (participants activity') = S (length (participants activity)) ∧
    (max_participants activity' < Z.of_nat (length (participants activity')))%Z.
Proof.
  intros Hlook Hnotin Hfull.
  exists (<[activity_name := append email activity]> registry), (append email activity).
  assert (Hlen : length (participants (append email activity))
                 = S (length (participants activity)))
    by (cbn; rewrite length_app; cbn; lia).
  split_and!.
  - by apply signup_lookup_fresh.
  - by rewrite lookup_insert_eq.
  - done.
  - exact Hlen.
  - rewrite Hlen. cbn [max_participants append]. lia.
Qed.

Lemma signup_ignores_capacity_witness :
  full_tennis_team !! "Tennis Team" = Some tennis_team_of_ten ∧
  ("s10@mergington.edu" ∉ participants tennis_team_of_ten) ∧
  (max_participants tennis_team_of_ten
   ≤ Z.of_nat (length (participants tennis_team_of_ten)))%Z ∧
  ∃ registry' activity',
    signup_for_activity "Tennis Team" "s10@mergington.edu" full_tennis_team
    = (Returned (mkMessage "Signed up s10@mergington.edu for Tennis Team"),
       registry') ∧
    registry' !! "Tennis Team" = Some activity' ∧
    max_participants activity' = 10 ∧
    length (participants activity') = 11%nat ∧
    (max_participants activity' < Z.of_nat (length (participants activity')))%Z.
Proof.
  assert (Hlook : full_tennis_team !! "Tennis Team" = Some tennis_team_of_ten)
    by (vm_compute; reflexivity).
  assert (Hnotin : "s10@mergington.edu" ∉ participants tennis_team_of_ten)
    by (apply (bool_decide_unpack _); vm_compute; exact I).
  assert (Hfull : (max_participants tennis_team_of_ten
                   ≤ Z.of_nat (length (participants tennis_team_of_ten)))%Z)
    by (cbn; lia).
  split; [exact Hlook|]. split; [exact Hnotin|]. split; [exact Hfull|].
  exact (signup_ignores_capacity full_tennis_team "Tennis Team"
           "s10@mergington.edu" tennis_team_of_ten Hlook Hnotin Hfull).
Defined.

(** C9. A signup for activity A that returns changes only A's participant
    list: the description, schedule and [max_participants] of A are as
    before, and every other key of the registry is bound as before. *)
Theorem signup_frame registry activity_name email msg registry' :
  signup_for_activity activity_name email registry = (Returned msg, registry') →
  (∃ activity activity',
     registry !! activity_name = Some activity ∧
     registry' !! activity_name = Some activity' ∧
     description activity' = description activity ∧
     schedule activity' = schedule activity ∧
     max_participants activity' = max_participants activity) ∧
  (∀ other, other ≠ activity_name → registry' !! other = registry !! other).
Proof.
  intros Hcall. apply signup_Returned_inv in Hcall.
  destruct Hcall as (activity & Hlook & _ & ->). split.
  - exists activity, (append email activity).
    by rewrite lookup_insert_eq.
  - intros other Hne. by rewrite lookup_insert_ne.
Qed.

Lemma signup_frame_witness :
  signup_for_activity "Art Studio" "student4@mergington.edu" activities
  = (Returned (mkMessage "Signed up student4@mergington.edu for Art Studio"),
     art_studio_signed_up) ∧
  (∃ activity activity',
     activities !! "Art Studio" = Some activity ∧
     art_studio_signed_up !! "Art Studio" = Some activity' ∧
     description activity' = description activity ∧
     schedule activity' = schedule activity ∧
     max_participants activity' = max_participants activity) ∧
  (∀ other, other ≠ "Art Studio" →
            art_studio_signed_up !! other = activities !! other).
Proof.
  assert (Hcall :
      signup_for_activity "Art Studio" "student4@mergington.edu" activities
      = (Returned (mkMessage "Signed up student4@mergington.edu for Art Studio"),
         art_studio_signed_up))
    by (vm_compute; reflexivity).
  split; [exact Hcall|].
  exact (signup_frame activities "Art Studio" "student4@mergington.edu" _ _ Hcall).
Defined.

(** ** The seed and its keys *)

(** C10. At process start the registry has exactly the six keys
    "Basketball Club", "Tennis Team", "Art Studio", "Music Band",
    "Debate Team" and "Science Club", and the participant list of every
    seeded activity is empty. *)
Theorem activities_seed :
  dom activities
  =@{gset string} {[ "Basketball Club"; "Tennis Team"; "Art Studio";
                     "Music Band"; "Debate Team"; "Science Club" ]} ∧
  size activities = 6%nat ∧
  map_Forall (λ _ activity, participants activity = []) activities.
Proof.
  split_and!.
  - apply (bool_decide_unpack _). vm_compute. exact I.
  - vm_compute. reflexivity.
  - apply (bool_decide_unpack _). vm_compute. exact I.
Qed.

(** C8. The set of activity names in the registry is invariant: no request
    (listing, signup or unregister, returning or raising) adds or removes
    a key, so after any sequence of requests the keys are the ones seeded
    at process start. *)
Theorem registry_keys_fixed detail_before detail_after :
  (∀ r registry,
     dom (serve detail_before detail_after r registry) = dom registry) ∧
  (∀ rs,
     dom (serve_all detail_before detail_after rs activities) = dom activities).
Proof.
  split.
  - apply serve_dom.
  - intros rs. apply serve_all_dom.
Qed.

(** ** Unregister *)

(** C1. For every activity name present in the registry and every email
    in that activity's participant set, unregister returns the
    confirmation "Unregistered {email} from {name}", and afterwards the
    activity's participants are the earlier ones without that email. *)
Theorem unregister_signed_up
    detail_before detail_after registry activity_name email activity :
  registry !! activity_name = Some activity →
  email ∈ participants activity →
  ∃ registry' activity',
    unregister detail_before detail_after activity_name email registry
    = (Returned (mkMessage ("Unregistered " +:+ email +:+ " from " +:+ activity_name)),
       registry') ∧
    registry' !! activity_name = Some activity' ∧
    (email ∉ participants activity') ∧
    participants activity' = filter (λ e, e ≠ email) (participants activity).
Proof.
  intros Hlook Hin.
  exists (<[activity_name := remove email activity]> registry), (remove email activity).
  split_and!.
  - by apply unregister_lookup_member.
  - by rewrite lookup_insert_eq.
  - cbn. rewrite list_elem_of_filter. tauto.
  - done.
Qed.

Lemma unregister_signed_up_witness :
  full_tennis_team !! "Tennis Team" = Some tennis_team_of_ten ∧
  ("s3@mergington.edu" ∈ participants tennis_team_of_ten) ∧
  ∃ registry' activity',
    unregister "Student is " " for this activity"
      "Tennis Team" "s3@mergington.edu" full_tennis_team
    = (Returned (mkMessage "Unregistered s3@mergington.edu from Tennis Team"),
       registry') ∧
    registry' !! "Tennis Team" = Some activity' ∧
    ("s3@mergington.edu" ∉ participants activity') ∧
    participants activity'
    = ["s0@mergington.edu"; "s1@mergington.edu"; "s2@mergington.edu";
       "s4@mergington.edu"; "s5@mergington.edu"; "s6@mergington.edu";
       "s7@mergington.edu"; "s8@mergington.edu"; "s9@mergington.edu"].
Proof.
  assert (Hlook : full_tennis_team !! "Tennis Team" = Some tennis_team_of_ten)
    by (vm_compute; reflexivity).
  assert (Hin : "s3@mergington.edu" ∈ participants tennis_team_of_ten)
    by (apply (bool_decide_unpack _); vm_compute; exact I).
  split; [exact Hlook|]. split; [exact Hin|].
  exact (unregister_signed_up "Student is " " for this activity" full_tennis_team
           "Tennis Team" "s3@mergington.edu" tennis_team_of_ten Hlook Hin).
Defined.

(** C5. For every activity name not in the registry, unregister raises the
    HTTP 404 error with detail "Activity not found"; for every activity
    name in the registry and every email not in that activity's
    participant set, unregister raises an HTTP 400 error whose detail
    contains "not signed up"; in both cases the registry after the call is
    the registry before it. *)
Theorem unregister_failures detail_before detail_after :
  (∀ registry activity_name email,
     activity_name ∉ dom registry →
     unregister detail_before detail_after activity_name email registry
     = (Raised (mkHTTPException 404 "Activity not found"), registry)) ∧
  (∀ registry activity_name email activity,
     registry !! activity_name = Some activity →
     email ∉ participants activity →
     ∃ e,
       unregister detail_before detail_after activity_name email registry
       = (Raised e, registry) ∧
       status_code e = 400 ∧
       str_contains "not signed up" (detail e) = true).
Proof.
  split.
  - intros registry activity_name email Hfresh.
    apply unregister_lookup_None. by apply not_elem_of_dom.
  - intros registry activity_name email activity Hlook Hnotin.
    eexists. split_and!.
    + by apply (unregister_lookup_absent _ _ _ _ _ activity).
    + done.
    + apply str_contains_middle.
Qed.

Lemma unregister_failures_witness :
  ("Nonexistent Activity" ∉ dom activities) ∧
  unregister "Student is " " for this activity"
    "Nonexistent Activity" "student@mergington.edu" activities
  = (Raised (mkHTTPException 404 "Activity not found"), activities) ∧
  activities !! "Art Studio" = Some art_studio_seed ∧
  ("notregistered@mergington.edu" ∉ participants art_studio_seed) ∧
  ∃ e,
    unregister "Student is " " for this activity"
      "Art Studio" "notregistered@mergington.edu" activities
    = (Raised e, activities) ∧
    status_code e = 400 ∧
    str_contains "not signed up" (detail e) = true.
Proof.
  assert (Hfresh : "Nonexistent Activity" ∉ dom activities)
    by (apply (bool_decide_unpack _); vm_compute; exact I).
  assert (Hlook : activities !! "Art Studio" = Some art_studio_seed)
    by (vm_compute; reflexivity).
  assert (Hnotin : "notregistered@mergington.edu" ∉ participants art_studio_seed)
    by (apply (bool_decide_unpack _); vm_compute; exact I).
  split; [exact Hfresh|]. split.
  - exact (proj1 (unregister_failures "Student is " " for this activity")
             activities "Nonexistent Activity" "student@mergington.edu" Hfresh).
  - split; [exact Hlook|]. split; [exact Hnotin|].
    exact (proj2 (unregister_failures "Student is " " for this activity")
             activities "Art Studio" "notregistered@mergington.edu"
             art_studio_seed Hlook Hnotin).
Defined.

(** ** The signup / unregister state machine *)

(** An unregister that returns leaves the pair not signed up, so that a
    signup for it returns again. *)
Lemma unregister_then_signup
    detail_before detail_after registry activity_name email msg registry' :
  unregister detail_before detail_after activity_name email registry
  = (Returned msg, registry') →
  ¬ signed_up registry' activity_name email ∧
  ∃ msg' registry'',
    signup_for_activity activity_name email registry' = (Returned msg', registry'') ∧
    signed_up registry'' activity_name email.
Proof.
  intros Hcall.
  destruct (registry !! activity_name) as [activity|] eqn:Hlook.
  - destruct (decide (email ∈ participants activity)) as [Hin|Hnotin].
    + rewrite (unregister_lookup_member _ _ _ _ _ _ Hlook Hin) in Hcall.
      inversion Hcall; subst; clear Hcall.
      assert (Hgone : email ∉ participants (remove email activity))
        by (cbn; rewrite list_elem_of_filter; tauto).
      split.
      * intros (activity' & Hlook' & Hin').
        rewrite lookup_insert_eq in Hlook'. by inversion Hlook'; subst.
      * eexists _, _. split.
        -- apply (signup_lookup_fresh _ _ _ (remove email activity)); [|done].
           by rewrite lookup_insert_eq.
        -- eexists. split; [by rewrite lookup_insert_eq|].
           cbn. apply elem_of_app. right. by apply list_elem_of_singleton.
    + rewrite (unregister_lookup_absent _ _ _ _ _ _ Hlook Hnotin) in Hcall.
      discriminate.
  - rewrite (unregister_lookup_None _ _ _ _ _ Hlook) in Hcall. discriminate.
Qed.

(** C7, as amended. For every activity name in the registry and every
    email not yet in that activity's participant set, signup, then
    unregister, then signup again for the same pair each return, and the
    pair ends signed up. *)
Theorem signup_cycle_from_not_signed_up
    detail_before detail_after registry activity_name email activity :
  registry !! activity_name = Some activity →
  email ∉ participants activity →
  signup_unregister_signup_succeeds
    detail_before detail_after registry activity_name email.
Proof.
  intros Hlook Hnotin. unfold signup_unregister_signup_succeeds.
  pose proof (signup_lookup_fresh _ _ _ _ Hlook Hnotin) as Hfirst.
  set (r1 := <[activity_name := append email activity]> registry) in *.
  assert (Hlook1 : r1 !! activity_name = Some (append email activity))
    by (subst r1; by rewrite lookup_insert_eq).
  assert (Hin1 : email ∈ participants (append email activity))
    by (cbn; apply elem_of_app; right; by apply list_elem_of_singleton).
  pose proof (unregister_lookup_member detail_before detail_after
                _ _ _ _ Hlook1 Hin1) as Hsecond.
  destruct (unregister_then_signup _ _ _ _ _ _ _ Hsecond)
    as (_ & m3 & r3 & Hthird & Hstate).
  eexists _, _, _, _, _, _. split_and!; [exact Hfirst|exact Hsecond|exact Hthird|exact Hstate].
Qed.

Lemma signup_cycle_from_not_signed_up_witness :
  activities !! "Art Studio" = Some art_studio_seed ∧
  ("student4@mergington.edu" ∉ participants art_studio_seed) ∧
  signup_unregister_signup_succeeds "Student is " " for this activity"
    activities "Art Studio" "student4@mergington.edu".
Proof.
  assert (Hlook : activities !! "Art Studio" = Some art_studio_seed)
    by (vm_compute; reflexivity).
  assert (Hnotin : "student4@mergington.edu" ∉ participants art_studio_seed)
    by (apply (bool_decide_unpack _); vm_compute; exact I).
  split; [exact Hlook|]. split; [exact Hnotin|].
  exact (signup_cycle_from_not_signed_up "Student is " " for this activity" activities
           "Art Studio" "student4@mergington.edu" art_studio_seed Hlook Hnotin).
Defined.

(** C7, as stated, fails: Art Studio is a key of the registry in which
    [student4@mergington.edu] has signed up for it, and there the first
    signup of the sequence raises the 400 error, whatever the wording of
    the unregister error. *)
Lemma signup_while_signed_up_fails :
  ("Art Studio" ∈ dom art_studio_signed_up) ∧
  signup_for_activity "Art Studio" "student4@mergington.edu" art_studio_signed_up
  = (Raised (mkHTTPException 400 "Student already signed up for this activity"),
     art_studio_signed_up) ∧
  ¬ (∀ detail_before detail_after registry activity_name email,
       activity_name ∈ dom registry →
       signup_unregister_signup_succeeds
         detail_before detail_after registry activity_name email).
Proof.
  assert (Hkey : "Art Studio" ∈ dom art_studio_signed_up)
    by (apply (bool_decide_unpack _); vm_compute; exact I).
  assert (Hcall :
      signup_for_activity "Art Studio" "student4@mergington.edu" art_studio_signed_up
      = (Raised (mkHTTPException 400 "Student already signed up for this activity"),
         art_studio_signed_up))
    by (vm_compute; reflexivity).
  split_and!; [exact Hkey|exact Hcall|].
  intros Hclaim.
  destruct (Hclaim "" "" art_studio_signed_up "Art Studio"
              "student4@mergington.edu" Hkey)
    as (m1 & r1 & _ & _ & _ & _ & Hfirst & _).
  rewrite Hcall in Hfirst. discriminate.
Qed.

(** * Further properties of the signup and listing routes *)

(** ** The registry after a signup, in closed form *)

Lemma signup_registry registry activity_name email :
  snd (signup_for_activity activity_name email registry)
  = match registry !! activity_name with
    | Some activity =>
        if bool_decide (email ∈ participants activity) then registry
        else <[activity_name := append email activity]> registry
    | None => registry
    end.
Proof.
  destruct (registry !! activity_name) as [activity|] eqn:Hlook.
  - case_bool_decide as Hin.
    + by rewrite (signup_lookup_member _ _ _ _ Hlook Hin).
    + by rewrite (signup_lookup_fresh _ _ _ _ Hlook Hin).
  - by rewrite (signup_lookup_None _ _ _ Hlook).
Qed.

Lemma signup_lookup_ne registry activity_name email other :
  other ≠ activity_name →
  snd (signup_for_activity activity_name email registry) !! other = registry !! other.
Proof.
  intros Hne. rewrite signup_registry.
  destruct (registry !! activity_name) as [activity|]; [|done].
  case_bool_decide; [done|]. by rewrite lookup_insert_ne.
Qed.

(** At the key of the call the record is kept, or gets the email at the
    end of its list; either way the email is in the list afterwards. *)
Lemma signup_lookup_eq registry activity_name email activity :
  registry !! activity_name = Some activity →
  ∃ activity',
    snd (signup_for_activity activity_name email registry) !! activity_name
    = Some activity' ∧
    (activity' = activity ∨ activity' = append email activity) ∧
    email ∈ participants activity'.
Proof.
  intros Hlook. rewrite signup_registry, Hlook. case_bool_decide as Hin.
  - exists activity. by split_and!; [|left|].
  - exists (append email activity). rewrite lookup_insert_eq.
    split_and!; [done|by right|].
    cbn. apply elem_of_app. right. by apply list_elem_of_singleton.
Qed.

(** The outcome of a signup depends on the registry only through the
    record at the key of the call. *)
Lemma signup_outcome_local registry1 registry2 activity_name email :
  registry1 !! activity_name = registry2 !! activity_name →
  fst (signup_for_activity activity_name email registry1)
  = fst (signup_for_activity activity_name email registry2).
Proof.
  intros Hsame.
  destruct (registry2 !! activity_name) as [activity|] eqn:Hlook.
  - destruct (decide (email ∈ participants activity)) as [Hin|Hnotin].
    + by rewrite (signup_lookup_member _ _ _ _ Hsame Hin),
                 (signup_lookup_member _ _ _ _ Hlook Hin).
    + by rewrite (signup_lookup_fresh _ _ _ _ Hsame Hnotin),
                 (signup_lookup_fresh _ _ _ _ Hlook Hnotin).
  - by rewrite (signup_lookup_None _ _ _ Hsame), (signup_lookup_None _ _ _ Hlook).
Qed.

(** ** Outcomes of a signup *)

(** X1. A signup returns its confirmation exactly when the activity is a
    key of the registry and the email is not in its participant list. *)
Theorem signup_returns_iff registry activity_name email :
  (∃ msg registry',
     signup_for_activity activity_name email registry = (Returned msg, registry'))
  ↔ (∃ activity,
       registry !! activity_name = Some activity ∧ email ∉ participants activity).
Proof.
  split.
  - intros (msg & registry' & Hcall). apply signup_Returned_inv in Hcall.
    destruct Hcall as (activity & Hlook & Hnotin & _). by exists activity.
  - intros (activity & Hlook & Hnotin). eexists _, _.
    by apply (signup_lookup_fresh _ _ _ activity).
Qed.

(** X2. A signup raises only the two errors of its guards, and never after
    having changed the registry: the 404 error when the activity is not a
    key, the 400 error when the email is already a participant. *)
Theorem signup_raises_404_or_400 registry activity_name email e registry' :
  signup_for_activity activity_name email registry = (Raised e, registry') →
  registry' = registry ∧
  ((e = mkHTTPException 404 "Activity not found" ∧ activity_name ∉ dom registry) ∨
   (e = mkHTTPException 400 "Student already signed up for this activity" ∧
    signed_up registry activity_name email)).
Proof.
  intros Hcall.
  destruct (registry !! activity_name) as [activity|] eqn:Hlook.
  - destruct (decide (email ∈ participants activity)) as [Hin|Hnotin].
    + rewrite (signup_lookup_member _ _ _ _ Hlook Hin) in Hcall.
      inversion Hcall; subst. split; [done|]. right. split; [done|].
      by exists activity.
    + rewrite (signup_lookup_fresh _ _ _ _ Hlook Hnotin) in Hcall. discriminate.
  - rewrite (signup_lookup_None _ _ _ Hlook) in Hcall.
    inversion Hcall; subst. split; [done|]. left. split; [done|].
    by apply not_elem_of_dom.
Qed.

Lemma signup_raises_404_or_400_witness :
  signup_for_activity "Art Studio" "student4@mergington.edu" art_studio_signed_up
  = (Raised (mkHTTPException 400 "Student already signed up for this activity"),
     art_studio_signed_up) ∧
  art_studio_signed_up = art_studio_signed_up ∧
  ((mkHTTPException 400 "Student already signed up for this activity"
    = mkHTTPException 404 "Activity not found" ∧
    "Art Studio" ∉ dom art_studio_signed_up) ∨
   (mkHTTPException 400 "Student already signed up for this activity"
    = mkHTTPException 400 "Student already signed up for this activity" ∧
    signed_up art_studio_signed_up "Art Studio" "student4@mergington.edu")).
Proof.
  assert (Hcall :
      signup_for_activity "Art Studio" "student4@mergington.edu" art_studio_signed_up
      = (Raised (mkHTTPException 400 "Student already signed up for this activity"),
         art_studio_signed_up))
    by (vm_compute; reflexivity).
  split; [exact Hcall|].
  exact (signup_raises_404_or_400 art_studio_signed_up "Art Studio"
           "student4@mergington.edu" _ _ Hcall).
Defined.

(** X3. Whatever its outcome, a signup for an activity of the registry
    leaves the email among that activity's participants. *)
Theorem signup_ensures_membership registry activity_name email :
  activity_name ∈ dom registry →
  signed_up (snd (signup_for_activity activity_name email registry))
            activity_name email.
Proof.
  intros Hkey. apply elem_of_dom in Hkey as [activity Hlook].
  destruct (signup_lookup_eq registry activity_name email activity Hlook)
    as (activity' & Hlook' & _ & Hin).
  by exists activity'.
Qed.

Lemma signup_ensures_membership_witness :
  ("Art Studio" ∈ dom activities) ∧
  signed_up (snd (signup_for_activity "Art Studio" "student4@mergington.edu" activities))
            "Art Studio" "student4@mergington.edu".
Proof.
  assert (Hkey : "Art Studio" ∈ dom activities)
    by (apply (bool_decide_unpack _); vm_compute; exact I).
  split; [exact Hkey|].
  exact (signup_ensures_membership activities "Art Studio"
           "student4@mergington.edu" Hkey).
Defined.

(** X4. The same signup issued a second time never returns: it raises and
    leaves the registry as the first call left it. *)
Theorem signup_repeat_raises registry activity_name email :
  ∃ e,
    signup_for_activity activity_name email
      (snd (signup_for_activity activity_name email registry))
    = (Raised e, snd (signup_for_activity activity_name email registry)).
Proof.
  destruct (registry !! activity_name) as [activity|] eqn:Hlook.
  - destruct (signup_lookup_eq registry activity_name email activity Hlook)
      as (activity' & Hlook' & _ & Hin).
    eexists. by apply (signup_lookup_member _ _ _ activity').
  - rewrite (signup_lookup_None _ _ _ Hlook). cbn.
    eexists. by apply signup_lookup_None.
Qed.

(** ** Signups for different activities *)

(** X5. Signups for two different activities do not interfere: the outcome
    of each is the same whether or not the other came first, and the
    registry after both does not depend on their order. *)
Theorem signups_distinct_activities_commute registry a b email_a email_b :
  a ≠ b →
  fst (signup_for_activity a email_a (snd (signup_for_activity b email_b registry)))
  = fst (signup_for_activity a email_a registry) ∧
  snd (signup_for_activity a email_a (snd (signup_for_activity b email_b registry)))
  = snd (signup_for_activity b email_b (snd (signup_for_activity a email_a registry))).
Proof.
  intros Hne.
  assert (Ha : snd (signup_for_activity b email_b registry) !! a = registry !! a)
    by (by apply signup_lookup_ne).
  assert (Hb : snd (signup_for_activity a email_a registry) !! b = registry !! b)
    by (by apply signup_lookup_ne).
  split; [by apply signup_outcome_local|].
  rewrite (signup_registry (snd (signup_for_activity b email_b registry))), Ha.
  rewrite (signup_registry (snd (signup_for_activity a email_a registry))), Hb.
  rewrite !signup_registry.
  destruct (registry !! a) as [activity_a|], (registry !! b) as [activity_b|];
    repeat case_bool_decide; try done.
  by apply insert_insert_ne.
Qed.

Lemma signups_distinct_activities_commute_witness :
  "Music Band" ≠ "Debate Team" ∧
  fst (signup_for_activity "Music Band" "student5@mergington.edu"
         (snd (signup_for_activity "Debate Team" "student6@mergington.edu" activities)))
  = fst (signup_for_activity "Music Band" "student5@mergington.edu" activities) ∧
  snd (signup_for_activity "Music Band" "student5@mergington.edu"
         (snd (signup_for_activity "Debate Team" "student6@mergington.edu" activities)))
  = snd (signup_for_activity "Debate Team" "student6@mergington.edu"
           (snd (signup_for_activity "Music Band" "student5@mergington.edu" activities))).
Proof.
  assert (Hne : "Music Band" ≠ "Debate Team") by discriminate.
  split; [exact Hne|].
  exact (signups_distinct_activities_commute activities "Music Band" "Debate Team"
           "student5@mergington.edu" "student6@mergington.edu" Hne).
Defined.

(** X6. One email can be signed up for two different activities: when it
    is in the participant list of neither, both signups return, one after
    the other, and the email is then a participant of both. *)
Theorem same_email_two_activities registry a b email activity_a activity_b :
  a ≠ b →
  registry !! a = Some activity_a →
  registry !! b = Some activity_b →
  email ∉ participants activity_a →
  email ∉ participants activity_b →
  ∃ msg_a registry_a msg_b registry_b,
    signup_for_activity a email registry = (Returned msg_a, registry_a) ∧
    signup_for_activity b email registry_a = (Returned msg_b, registry_b) ∧
    signed_up registry_b a email ∧
    signed_up registry_b b email.
Proof.
  intros Hne Ha Hb Hnotin_a Hnotin_b.
  pose proof (signup_lookup_fresh _ _ _ _ Ha Hnotin_a) as Hfirst.
  assert (Hb' : <[a := append email activity_a]> registry !! b = Some activity_b)
    by (by rewrite lookup_insert_ne).
  pose proof (signup_lookup_fresh _ _ _ _ Hb' Hnotin_b) as Hsecond.
  eexists _, _, _, _. split_and!; [exact Hfirst|exact Hsecond| |].
  - exists (append email activity_a). split.
    + rewrite lookup_insert_ne by done. by rewrite lookup_insert_eq.
    + cbn. apply elem_of_app. right. by apply list_elem_of_singleton.
  - exists (append email activity_b). split.
    + by rewrite lookup_insert_eq.
    + cbn. apply elem_of_app. right. by apply list_elem_of_singleton.
Qed.

Lemma same_email_two_activities_witness :
  "Music Band" ≠ "Debate Team" ∧
  activities !! "Music Band" = Some music_band_seed ∧
  activities !! "Debate Team" = Some debate_team_seed ∧
  ("student5@mergington.edu" ∉ participants music_band_seed) ∧
  ("student5@mergington.edu" ∉ participants debate_team_seed) ∧
  ∃ msg_a registry_a msg_b registry_b,
    signup_for_activity "Music Band" "student5@mergington.edu" activities
    = (Returned msg_a, registry_a) ∧
    signup_for_activity "Debate Team" "student5@mergington.edu" registry_a
    = (Returned msg_b, registry_b) ∧
    signed_up registry_b "Music Band" "student5@mergington.edu" ∧
    signed_up registry_b "Debate Team" "student5@mergington.edu".
Proof.
  assert (Hne : "Music Band" ≠ "Debate Team") by discriminate.
  assert (Ha : activities !! "Music Band" = Some music_band_seed)
    by (vm_compute; reflexivity).
  assert (Hb : activities !! "Debate Team" = Some debate_team_seed)
    by (vm_compute; reflexivity).
  assert (Hnotin_a : "student5@mergington.edu" ∉ participants music_band_seed)
    by (apply (bool_decide_unpack _); vm_compute; exact I).
  assert (Hnotin_b : "student5@mergington.edu" ∉ participants debate_team_seed)
    by (apply (bool_decide_unpack _); vm_compute; exact I).
  split; [exact Hne|]. split; [exact Ha|]. split; [exact Hb|].
  split; [exact Hnotin_a|]. split; [exact Hnotin_b|].
  exact (same_email_two_activities activities "Music Band" "Debate Team"
           "student5@mergington.edu" music_band_seed debate_team_seed
           Hne Ha Hb Hnotin_a Hnotin_b).
Defined.

(** ** The confirmation message *)

Lemma string_append_assoc (s1 s2 s3 : string) :
  s1 +:+ (s2 +:+ s3) = (s1 +:+ s2) +:+ s3.
Proof.
  induction s1 as [|c s1 IH]; [done|].
  change (String c (s1 +:+ (s2 +:+ s3)) = String c ((s1 +:+ s2) +:+ s3)).
  by rewrite IH.
Qed.

Lemma str_contains_end (before needle : string) :
  str_contains needle (before +:+ needle) = true.
Proof.
  induction before as [|c before IH].
  - change ("" +:+ needle) with needle.
    rewrite str_contains_unfold.
    assert (Hself : String.prefix needle needle = true).
    { clear. induction needle as [|c needle IH]; [done|].
      change (match Ascii.ascii_dec c c with
              | left _ => String.prefix needle needle
              | right _ => false
              end = true).
      destruct (Ascii.ascii_dec c c) as [_|Hne]; [exact IH | by destruct Hne]. }
    by rewrite Hself.
  - change (String c before +:+ needle) with (String c (before +:+ needle)).
    rewrite str_contains_unfold, IH. by destruct (String.prefix _ _).
Qed.

(** X7. The confirmation that a signup returns mentions both the email and
    the activity name of the call, as the tests look for them with [in]. *)
Theorem signup_message_mentions registry activity_name email msg registry' :
  signup_for_activity activity_name email registry = (Returned msg, registry') →
  str_contains email (message msg) = true ∧
  str_contains activity_name (message msg) = true.
Proof.
  intros Hcall.
  pose proof Hcall as Hinv. apply signup_Returned_inv in Hinv.
  destruct Hinv as (activity & Hlook & Hnotin & _).
  rewrite (signup_lookup_fresh _ _ _ _ Hlook Hnotin) in Hcall.
  inversion Hcall; subst; clear Hcall. cbn [message]. split.
  - apply str_contains_middle.
  - rewrite 2!string_append_assoc. apply str_contains_end.
Qed.

Lemma signup_message_mentions_witness :
  signup_for_activity "Art Studio" "student4@mergington.edu" activities
  = (Returned (mkMessage "Signed up student4@mergington.edu for Art Studio"),
     art_studio_signed_up) ∧
  str_contains "student4@mergington.edu"
    "Signed up student4@mergington.edu for Art Studio" = true ∧
  str_contains "Art Studio"
    "Signed up student4@mergington.edu for Art Studio" = true.
Proof.
  assert (Hcall :
      signup_for_activity "Art Studio" "student4@mergington.edu" activities
      = (Returned (mkMessage "Signed up student4@mergington.edu for Art Studio"),
         art_studio_signed_up))
    by (vm_compute; reflexivity).
  split; [exact Hcall|].
  exact (signup_message_mentions activities "Art Studio"
           "student4@mergington.edu" _ _ Hcall).
Defined.

(** ** Sessions *)

Lemma session_cons c cs registry :
  session (c :: cs) registry
  = (fst (perform c registry) :: fst (session cs (snd (perform c registry))),
     snd (session cs (snd (perform c registry)))).
Proof.
  cbn [session]. destruct (perform c registry) as [resp registry'].
  cbn [fst snd]. by destruct (session cs registry').
Qed.

Lemma perform_list registry :
  perform ListActivities registry = (Listing registry, registry).
Proof. done. Qed.

Lemma perform_signup activity_name email registry :
  perform (PostSignup activity_name email) registry
  = (respond Confirmed (fst (signup_for_activity activity_name email registry)),
     snd (signup_for_activity activity_name email registry)).
Proof.
  cbn [perform]. by destruct (signup_for_activity activity_name email registry).
Qed.

Lemma perform_dom c registry : dom (snd (perform c registry)) = dom registry.
Proof.
  destruct c as [|activity_name email].
  - done.
  - rewrite perform_signup. apply signup_dom.
Qed.

Lemma confirmed_signups_cons activity_name c cs resp resps :
  confirmed_signups activity_name (c :: cs) (resp :: resps)
  = confirmed_signups activity_name [c] [resp]
    ++ confirmed_signups activity_name cs resps.
Proof.
  destruct c as [|name email], resp as [listed|m|e]; cbn; try done.
  by case_decide.
Qed.

(** One call: the record at a key keeps its fixed fields, and its list
    gets the email of the call when the call was a confirmed signup for
    that key. *)
Lemma perform_lookup c registry key activity :
  registry !! key = Some activity →
  ∃ activity',
    snd (perform c registry) !! key = Some activity' ∧
    description activity' = description activity ∧
    schedule activity' = schedule activity ∧
    max_participants activity' = max_participants activity ∧
    participants activity'
    = participants activity
      ++ confirmed_signups key [c] [fst (perform c registry)].
Proof.
  intros Hlook. destruct c as [|activity_name email].
  - exists activity. rewrite perform_list. cbn. by rewrite app_nil_r.
  - rewrite perform_signup. cbn [fst snd].
    destruct (decide (activity_name = key)) as [->|Hne].
    + destruct (decide (email ∈ participants activity)) as [Hin|Hnotin].
      * rewrite (signup_lookup_member _ _ _ _ Hlook Hin). cbn.
        exists activity. by rewrite app_nil_r.
      * rewrite (signup_lookup_fresh _ _ _ _ Hlook Hnotin). cbn.
        exists (append email activity). rewrite lookup_insert_eq.
        by rewrite decide_True.
    + exists activity. rewrite signup_lookup_ne by done.
      split_and!; try done.
      destruct (fst (signup_for_activity activity_name email registry)) as [m|e]; cbn.
      * rewrite decide_False by done. by rewrite app_nil_r.
      * by rewrite app_nil_r.
Qed.

(** X8. Over a whole session, no call changes the description, schedule or
    capacity of an activity, and no call removes or reorders participants:
    an activity's list at the end is its list at the start followed by the
    emails of the confirmed signups for it, in the order of the calls. *)
Theorem session_participants_accounting cs registry key activity :
  registry !! key = Some activity →
  ∃ activity',
    snd (session cs registry) !! key = Some activity' ∧
    description activity' = description activity ∧
    schedule activity' = schedule activity ∧
    max_participants activity' = max_participants activity ∧
    participants activity'
    = participants activity
      ++ confirmed_signups key cs (fst (session cs registry)).
Proof.
  revert registry activity.
  induction cs as [|c cs IH]; intros registry activity Hlook.
  - exists activity. cbn. by rewrite app_nil_r.
  - destruct (perform_lookup c registry key activity Hlook)
      as (activity1 & Hlook1 & Hd1 & Hs1 & Hm1 & Hp1).
    destruct (IH _ _ Hlook1) as (activity2 & Hlook2 & Hd2 & Hs2 & Hm2 & Hp2).
    exists activity2. rewrite session_cons. cbn [fst snd].
    split_and!; [done|congruence|congruence|congruence|].
    rewrite confirmed_signups_cons, Hp2, Hp1. by rewrite <- app_assoc.
Qed.

Lemma session_participants_accounting_witness :
  activities !! "Music Band" = Some music_band_seed ∧
  ∃ activity',
    snd (session sample_session activities) !! "Music Band" = Some activity' ∧
    description activity' = description music_band_seed ∧
    schedule activity' = schedule music_band_seed ∧
    max_participants activity' = max_participants music_band_seed ∧
    participants activity'
    = [] ++ ["student5@mergington.edu"; "student6@mergington.edu"].
Proof.
  assert (Hlook : activities !! "Music Band" = Some music_band_seed)
    by (vm_compute; reflexivity).
  split; [exact Hlook|].
  exact (session_participants_accounting sample_session activities
           "Music Band" music_band_seed Hlook).
Defined.

(** X9. No session puts an email twice into a participant list: a
    registry whose lists are duplicate-free stays so over every session. *)
Theorem session_no_duplicates cs registry :
  no_duplicate_participants registry →
  no_duplicate_participants (snd (session cs registry)).
Proof.
  revert registry. induction cs as [|c cs IH]; intros registry Hinv; [done|].
  rewrite session_cons. cbn [snd]. apply IH.
  destruct c as [|activity_name email].
  - done.
  - rewrite perform_signup. by apply signup_no_duplicates.
Qed.

Lemma session_no_duplicates_witness :
  no_duplicate_participants activities ∧
  no_duplicate_participants (snd (session sample_session activities)).
Proof.
  assert (Hinv : no_duplicate_participants activities).
  { unfold no_duplicate_participants.
    apply (bool_decide_unpack _). vm_compute. exact I. }
  split; [exact Hinv|].
  exact (session_no_duplicates sample_session activities Hinv).
Defined.

(** X10. Listing is read-only: taking the listing calls out of a session
    changes neither the answers to its signups nor the registry at the
    end. *)
Theorem listings_are_transparent cs registry :
  session (filter (λ c, c ≠ ListActivities) cs) registry
  = (filter (λ resp, is_listing resp = false) (fst (session cs registry)),
     snd (session cs registry)).
Proof.
  revert registry. induction cs as [|c cs IH]; intros registry; [done|].
  rewrite (session_cons c cs). cbn [fst snd].
  destruct c as [|activity_name email].
  - rewrite filter_cons_False by (intros Hne; by apply Hne).
    rewrite perform_list. cbn [fst snd].
    rewrite filter_cons_False by done. apply IH.
  - rewrite filter_cons_True by done.
    rewrite session_cons, IH, perform_signup. cbn [fst snd].
    rewrite filter_cons_True; [done|].
    by destruct (fst (signup_for_activity activity_name email registry)).
Qed.

(** One call: a pair is signed up afterwards exactly when it was before or
    the call was a signup for it on an activity of the registry. *)
Lemma perform_signed_up c registry activity_name email :
  signed_up (snd (perform c registry)) activity_name email
  ↔ signed_up registry activity_name email ∨
    (activity_name ∈ dom registry ∧ c = PostSignup activity_name email).
Proof.
  destruct c as [|name addr].
  - rewrite perform_list. cbn [snd]. split; [by left|].
    intros [Hup | [_ Heq]]; [done|discriminate].
  - rewrite perform_signup. cbn [snd].
    destruct (decide (name = activity_name)) as [->|Hne].
    + destruct (registry !! activity_name) as [activity|] eqn:Hlook.
      * destruct (decide (addr ∈ participants activity)) as [Hin|Hnotin].
        -- rewrite (signup_lookup_member _ _ _ _ Hlook Hin). cbn [snd].
           split; [by left|]. intros [Hup | [_ Heq]]; [done|].
           inversion Heq; subst. by exists activity.
        -- rewrite (signup_lookup_fresh _ _ _ _ Hlook Hnotin). cbn [snd].
           split.
           ++ intros (activity' & Hlook' & Hin').
              rewrite lookup_insert_eq in Hlook'. inversion Hlook'; subst.
              cbn in Hin'. apply elem_of_app in Hin'.
              destruct Hin' as [Hold | Hnew].
              ** left. by exists activity.
              ** apply list_elem_of_singleton in Hnew. subst.
                 right. split; [|done]. apply elem_of_dom. by exists activity.
           ++ intros [(activity' & Hlook' & Hin') | [_ Heq]].
              ** rewrite Hlook in Hlook'. inversion Hlook'; subst.
                 exists (append addr activity'). rewrite lookup_insert_eq.
                 split; [done|]. cbn. apply elem_of_app. by left.
              ** inversion Heq; subst.
                 exists (append email activity). rewrite lookup_insert_eq.
                 split; [done|]. cbn. apply elem_of_app. right.
                 by apply list_elem_of_singleton.
      * rewrite (signup_lookup_None _ _ _ Hlook). cbn [snd].
        split; [by left|]. intros [Hup | [Hkey _]]; [done|].
        apply elem_of_dom in Hkey. destruct Hkey as [activity Hsome]. congruence.
    + assert (Hsame : ∀ registry',
                registry' = snd (signup_for_activity name addr registry) →
                registry' !! activity_name = registry !! activity_name)
        by (intros ? ->; by apply signup_lookup_ne).
      split.
      * intros (activity & Hlook & Hin). left. exists activity.
        by rewrite <- (Hsame _ eq_refl).
      * intros [(activity & Hlook & Hin) | [_ Heq]].
        -- exists activity. by rewrite (Hsame _ eq_refl).
        -- inversion Heq; subst. done.
Qed.

(** X11. Membership is exactly what was asked for: after a session, an
    email is a participant of an activity if and only if it was one at
    the start, or the activity is a key of the registry and the session
    holds a signup call for that activity and email. *)
Theorem signed_up_iff_requested cs registry activity_name email :
  signed_up (snd (session cs registry)) activity_name email
  ↔ signed_up registry activity_name email ∨
    (activity_name ∈ dom registry ∧ PostSignup activity_name email ∈ cs).
Proof.
  revert registry. induction cs as [|c cs IH]; intros registry.
  - cbn [session snd]. split; [by left|].
    intros [Hup | [_ Hin]]; [done|]. by apply elem_of_nil in Hin.
  - rewrite session_cons. cbn [snd].
    rewrite IH, perform_signed_up, perform_dom, elem_of_cons.
    split.
    + intros [[Hup | [Hkey Hc]] | [Hkey Hin]].
      * by left.
      * right. split; [done|]. by left.
      * right. split; [done|]. by right.
    + intros [Hup | [Hkey [Hc | Hin]]].
      * left. by left.
      * left. right. by split.
      * right. by split.
Qed.
